(** * youtube_transcript_fetcher.py: a shallow embedding and its properties

    The script wraps one call of the youtube-transcript-api library:
    [fetch_transcript] turns the call's outcome into a result dictionary and
    the [__main__] block prints that dictionary as JSON.

    The library is outside the repository, so it enters the model as a
    function [api] from the arguments of [YouTubeTranscriptApi().fetch] to the
    outcome of the call: a [FetchedTranscript] or a raised exception.  Python
    effects (the call, [print], [sys.exit], exceptions) are threaded through a
    small state-and-outcome monad [Py]. *)

From Stdlib Require Import List String Ascii Bool Arith ZArith Lia Floats.
Import ListNotations.
Open Scope string_scope.

(** ** Python values *)

(** The values that the script stores in its dictionaries. *)
Inductive PyValue : Type :=
| PyBool (b : bool)
| PyStr (s : string).

(** A [dict]: keys in insertion order, each key once. *)
Definition PyDict : Type := list (string * PyValue).

Fixpoint dict_setitem (d : PyDict) (k : string) (v : PyValue) : PyDict :=
  match d with
  | [] => [(k, v)]
  | (k', v') :: d' =>
      if String.eqb k' k then (k', v) :: d' else (k', v') :: dict_setitem d' k v
  end.

(** A dictionary display [{k1: v1, k2: v2, ...}]: items are stored left to
    right, a repeated key keeps its first position and its last value. *)
Definition dict_literal (items : list (string * PyValue)) : PyDict :=
  fold_left (fun d kv => dict_setitem d (fst kv) (snd kv)) items [].

Fixpoint dict_get (d : PyDict) (k : string) : option PyValue :=
  match d with
  | [] => None
  | (k', v) :: d' => if String.eqb k' k then Some v else dict_get d' k
  end.

Definition dict_keys (d : PyDict) : list string := map fst d.

(** [sep.join(items)] on strings. *)
Fixpoint str_join (sep : string) (items : list string) : string :=
  match items with
  | [] => EmptyString
  | [s] => s
  | s :: rest => s ++ sep ++ str_join sep rest
  end.

(** ** Exceptions *)

(** The classes named by the [except] clauses of [fetch_transcript].  The
    three library classes are siblings; [Exception] is their common ancestor
    and stands for itself and for every other subclass of it. *)
Inductive ExcClass : Type :=
| TranscriptsDisabled
| VideoUnavailable
| NoTranscriptFound
| Exception.

Definition ExcClass_eqb (c d : ExcClass) : bool :=
  match c, d with
  | TranscriptsDisabled, TranscriptsDisabled => true
  | VideoUnavailable, VideoUnavailable => true
  | NoTranscriptFound, NoTranscriptFound => true
  | Exception, Exception => true
  | _, _ => false
  end.

Definition issubclass (c d : ExcClass) : bool :=
  match d with
  | Exception => true
  | _ => ExcClass_eqb c d
  end.

(** A raised exception object: its class (the most specific of the classes
    above) and the text that [str(e)] gives. *)
Record PyException : Type := {
  exc_class : ExcClass;
  description : string
}.

Definition isinstance (e : PyException) (c : ExcClass) : bool :=
  issubclass (exc_class e) c.

Definition str (e : PyException) : string := description e.

(** ** The external library *)

(** One caption segment: text, start and duration. *)
Record FetchedTranscriptSnippet : Type := {
  text : string;
  start : float;
  duration : float
}.

(** The object that [api.fetch] returns: iterating it yields the snippets in
    order; [language_code] is [None] when the object has no such attribute
    (what [hasattr] tests). *)
Record FetchedTranscript : Type := {
  snippets : list FetchedTranscriptSnippet;
  language_code : option string
}.

Definition hasattr_language_code (t : FetchedTranscript) : bool :=
  match language_code t with
  | Some _ => true
  | None => false
  end.

Inductive FetchOutcome : Type :=
| Fetched (t : FetchedTranscript)
| Failed (e : PyException).

(** [YouTubeTranscriptApi().fetch(video_id, languages=...)] as a function of
    its arguments.  Building the API instance sits in the same [try] block,
    so a failure of the constructor is a [Failed] outcome as well. *)
Definition YouTubeTranscriptApi : Type := string -> list string -> FetchOutcome.

(** ** The effect monad *)

(** What the process has done so far: the library calls it made, oldest
    first, and the text written to standard output. *)
Record World : Type := {
  api_calls : list (string * list string);
  stdout : string
}.

Definition initial_world : World := {| api_calls := []; stdout := EmptyString |}.

(** How a statement ends: normally with a value, with a raised exception, or
    with [SystemExit] carrying the exit status. *)
Inductive Outcome (A : Type) : Type :=
| Return (a : A)
| Raise (e : PyException)
| SystemExit (status : Z).

Arguments Return {A} a.
Arguments Raise {A} e.
Arguments SystemExit {A} status.

Definition Py (A : Type) : Type := World -> Outcome A * World.

Definition ret {A : Type} (a : A) : Py A := fun w => (Return a, w).

Definition bind {A B : Type} (m : Py A) (k : A -> Py B) : Py B :=
  fun w =>
    match m w with
    | (Return a, w') => k a w'
    | (Raise e, w') => (Raise e, w')
    | (SystemExit n, w') => (SystemExit n, w')
    end.

Declare Scope py_scope.
Delimit Scope py_scope with py.
Notation "x <- m ;; k" := (bind m (fun x => k))
  (at level 100, m at next level, right associativity) : py_scope.
Notation "m ;; k" := (bind m (fun _ => k))
  (at level 100, right associativity) : py_scope.
Open Scope py_scope.

Definition raise {A : Type} (e : PyException) : Py A := fun w => (Raise e, w).

(** [sys.exit(status)]: raises [SystemExit], which no [except Exception]
    clause catches. *)
Definition sys_exit {A : Type} (status : Z) : Py A :=
  fun w => (SystemExit status, w).

Definition newline : string := String (ascii_of_nat 10) EmptyString.

(** [print(s)]: the string and a newline go to standard output. *)
Definition print (s : string) : Py unit :=
  fun w =>
    (Return tt, {| api_calls := api_calls w; stdout := stdout w ++ s ++ newline |}).

(** [api.fetch(video_id, languages=languages)]: the call is recorded, then
    its outcome is returned or raised. *)
Definition api_fetch (api : YouTubeTranscriptApi)
    (video_id : string) (languages : list string) : Py FetchedTranscript :=
  fun w =>
    let w' := {| api_calls := api_calls w ++ [(video_id, languages)];
                 stdout := stdout w |} in
    match api video_id languages with
    | Fetched t => (Return t, w')
    | Failed e => (Raise e, w')
    end.

(** The first [except] clause whose class the exception is an instance of. *)
Fixpoint find_handler {A : Type} (e : PyException)
    (handlers : list (ExcClass * (PyException -> Py A)))
    : option (PyException -> Py A) :=
  match handlers with
  | [] => None
  | (c, h) :: rest => if isinstance e c then Some h else find_handler e rest
  end.

(** [try: body except c1: h1 except c2: h2 ...]: an exception raised by the
    body runs the first matching handler and propagates when there is none;
    [SystemExit] passes through. *)
Definition try_except {A : Type} (body : Py A)
    (handlers : list (ExcClass * (PyException -> Py A))) : Py A :=
  fun w =>
    match body w with
    | (Raise e, w') =>
        match find_handler e handlers with
        | Some h => h e w'
        | None => (Raise e, w')
        end
    | r => r
    end.

(** [transcript_obj.language_code]: [AttributeError] when the object has no
    such attribute. *)
Definition getattr_language_code (t : FetchedTranscript) : Py string :=
  match language_code t with
  | Some code => ret code
  | None => raise {| exc_class := Exception;
                     description := "object has no attribute 'language_code'" |}
  end.

(** [xs[i]] on a list: [IndexError] when [i] is out of range. *)
Definition list_getitem (xs : list string) (i : nat) : Py string :=
  match nth_error xs i with
  | Some x => ret x
  | None => raise {| exc_class := Exception;
                     description := "list index out of range" |}
  end.

(** ** [json.dumps]

    Default settings: [ensure_ascii] is on and the separators are a comma and
    a colon, each followed by a space.  A character of a [string] is read as
    one code point below 256. *)

Definition double_quote : string := String (ascii_of_nat 34) EmptyString.
Definition backslash : string := String (ascii_of_nat 92) EmptyString.

Definition hex_digit (d : nat) : ascii :=
  match String.get d "0123456789abcdef" with
  | Some c => c
  | None => "0"%char
  end.

(** The two-character escapes of the encoder's table; every other character
    outside the range from space to tilde becomes a four-digit escape. *)
Definition json_escape_char (c : ascii) : string :=
  let n := nat_of_ascii c in
  if Nat.eqb n 34 then backslash ++ double_quote
  else if Nat.eqb n 92 then backslash ++ backslash
  else if Nat.eqb n 10 then backslash ++ "n"
  else if Nat.eqb n 13 then backslash ++ "r"
  else if Nat.eqb n 9 then backslash ++ "t"
  else if Nat.eqb n 12 then backslash ++ "f"
  else if Nat.eqb n 8 then backslash ++ "b"
  else if Nat.ltb n 32 || Nat.ltb 126 n then
    backslash ++ "u00"
      ++ String (hex_digit (n / 16)) (String (hex_digit (n mod 16)) EmptyString)
  else String c EmptyString.

Fixpoint json_escape (s : string) : string :=
  match s with
  | EmptyString => EmptyString
  | String c s' => json_escape_char c ++ json_escape s'
  end.

Definition json_dumps_str (s : string) : string :=
  double_quote ++ json_escape s ++ double_quote.

Definition json_dumps_value (v : PyValue) : string :=
  match v with
  | PyBool true => "true"
  | PyBool false => "false"
  | PyStr s => json_dumps_str s
  end.

Definition json_dumps (d : PyDict) : string :=
  "{"
    ++ str_join ", "
         (map (fun kv => json_dumps_str (fst kv) ++ ": " ++ json_dumps_value (snd kv)) d)
    ++ "}".

(** ** The script *)

Section Script.

Variable api : YouTubeTranscriptApi.

(** [fetch_transcript(video_id)], lines 12 to 54. *)
Definition fetch_transcript (video_id : string) : Py PyDict :=
  try_except
    (transcript_obj <- api_fetch api video_id ["en"] ;;
     let text := str_join " " (map (fun snippet => text snippet)
                                   (snippets transcript_obj)) in
     language <- (if hasattr_language_code transcript_obj
                  then getattr_language_code transcript_obj
                  else ret "en") ;;
     ret (dict_literal
            [ ("success", PyBool true);
              ("transcript", PyStr text);
              ("language", PyStr language) ]))
    [ (TranscriptsDisabled, fun _ =>
         ret (dict_literal
                [ ("success", PyBool false);
                  ("error", PyStr "Transcripts are disabled for this video") ]));
      (VideoUnavailable, fun _ =>
         ret (dict_literal
                [ ("success", PyBool false);
                  ("error", PyStr "Video is unavailable") ]));
      (NoTranscriptFound, fun _ =>
         ret (dict_literal
                [ ("success", PyBool false);
                  ("error", PyStr "No transcript found for this video") ]));
      (Exception, fun e =>
         ret (dict_literal
                [ ("success", PyBool false);
                  ("error", PyStr (str e)) ])) ].

(** The [__main__] block, lines 56 to 66, on [sys.argv]. *)
Definition main (argv : list string) : Py unit :=
  if negb (Nat.eqb (List.length argv) 2) then
    (print (json_dumps
              (dict_literal
                 [ ("success", PyBool false);
                   ("error",
                    PyStr "Usage: youtube_transcript_fetcher.py <video_id>") ])) ;;
     sys_exit 1)
  else
    (video_id <- list_getitem argv 1 ;;
     result <- fetch_transcript video_id ;;
     print (json_dumps result)).

End Script.

(** ** The process *)

(** What an observer of the process sees when it has ended. *)
Record Process : Type := {
  exit_status : Z;
  output : string;
  calls : list (string * list string)
}.

(** The interpreter's exit status: 0 when the script runs to its end, the
    status of [SystemExit], and 1 for an exception that nothing caught. *)
Definition status_of {A : Type} (o : Outcome A) : Z :=
  match o with
  | Return _ => 0
  | Raise _ => 1
  | SystemExit n => n
  end.

Definition run (api : YouTubeTranscriptApi) (argv : list string) : Process :=
  let (o, w) := main api argv initial_world in
  {| exit_status := status_of o; output := stdout w; calls := api_calls w |}.

(** The arguments after the program name. *)
Definition argument_count (argv : list string) : nat := List.length (tl argv).

(** ** The specification's wording of the text *)

(** The texts in sequence order, a single space before each one but the
    first. *)
Definition space_separated (texts : list string) : string :=
  match texts with
  | [] => EmptyString
  | first :: others => fold_left (fun acc s => acc ++ " " ++ s) others first
  end.

(** ** Sample inputs *)

Definition snippet_of (s : string) : FetchedTranscriptSnippet :=
  {| text := s; start := 0%float; duration := 1%float |}.

Definition abc_transcript : FetchedTranscript :=
  {| snippets := [snippet_of "a"; snippet_of "b"; snippet_of "c"];
     language_code := Some "en-US" |}.

Definition bare_transcript : FetchedTranscript :=
  {| snippets := [snippet_of "hello"; snippet_of "world"];
     language_code := None |}.


(** The segments a, b, c again, with other timing. *)
Definition abc_transcript_later : FetchedTranscript :=
  {| snippets := [ {| text := "a"; start := 12.5%float; duration := 2%float |};
                   {| text := "b"; start := 14.5%float; duration := 3%float |};
                   {| text := "c"; start := 17.5%float; duration := 0.5%float |} ];
     language_code := Some "en-US" |}.

Definition api_returning (t : FetchedTranscript) : YouTubeTranscriptApi :=
  fun _ _ => Fetched t.

Definition api_raising (c : ExcClass) (msg : string) : YouTubeTranscriptApi :=
  fun _ _ => Failed {| exc_class := c; description := msg |}.

(** An API that has a transcript only for one video asked for in English. *)
Definition api_one_video (id : string) (t : FetchedTranscript) : YouTubeTranscriptApi :=
  fun video_id languages =>
    match languages with
    | [language] =>
        if String.eqb video_id id && String.eqb language "en" then Fetched t
        else Failed {| exc_class := NoTranscriptFound; description := "no transcript" |}
    | _ => Failed {| exc_class := NoTranscriptFound; description := "no transcript" |}
    end.

(** ** Notions used by the statements *)

(** The world after the one library call of [fetch_transcript]. *)
Definition called (w : World) (video_id : string) : World :=
  {| api_calls := api_calls w ++ [(video_id, ["en"])]; stdout := stdout w |}.

(** A text between double quotes, as it stands in the printed JSON when it
    needs no escape. *)
Definition quoted (s : string) : string := double_quote ++ s ++ double_quote.

(** ** Reading the printed line *)



Definition hex_value (c : ascii) : option nat :=
  String.index 0 (String c EmptyString) "0123456789abcdef".

(** The character whose escape a text starts with, and the text after it;
    nothing when the text starts with a bare double quote or with no
    escape of the encoder. *)
Definition json_read_char (s : string) : option (ascii * string) :=
  match s with
  | EmptyString => None
  | String c rest =>
      if Nat.eqb (nat_of_ascii c) 34 then None
      else if Nat.eqb (nat_of_ascii c) 92 then
        match rest with
        | EmptyString => None
        | String e rest' =>
            let k := nat_of_ascii e in
            if Nat.eqb k 34 then Some (ascii_of_nat 34, rest')
            else if Nat.eqb k 92 then Some (ascii_of_nat 92, rest')
            else if Nat.eqb k 110 then Some (ascii_of_nat 10, rest')
            else if Nat.eqb k 114 then Some (ascii_of_nat 13, rest')
            else if Nat.eqb k 116 then Some (ascii_of_nat 9, rest')
            else if Nat.eqb k 102 then Some (ascii_of_nat 12, rest')
            else if Nat.eqb k 98 then Some (ascii_of_nat 8, rest')
            else if Nat.eqb k 117 then
              match rest' with
              | String _ (String _ (String h (String l rest''))) =>
                  match hex_value h, hex_value l with
                  | Some a, Some b => Some (ascii_of_nat (16 * a + b), rest'')
                  | _, _ => None
                  end
              | _ => None
              end
            else None
        end
      else Some (c, rest)
  end.

(** [haystack] has [needle] somewhere inside it. *)
Definition occurs_in (needle haystack : string) : Prop :=
  exists before after, haystack = before ++ needle ++ after.

(** * Properties *)

(** ** Concrete runs *)

Example run_abc :
  run (api_returning abc_transcript) ["youtube_transcript_fetcher.py"; "dQw4w9WgXcQ"]
  = {| exit_status := 0;
       output := "{" ++ quoted "success" ++ ": true, "
                 ++ quoted "transcript" ++ ": " ++ quoted "a b c" ++ ", "
                 ++ quoted "language" ++ ": " ++ quoted "en-US" ++ "}" ++ newline;
       calls := [("dQw4w9WgXcQ", ["en"])] |}.
Proof. reflexivity. Qed.

Example run_disabled :
  run (api_raising TranscriptsDisabled "subtitles are off")
      ["youtube_transcript_fetcher.py"; "dQw4w9WgXcQ"]
  = {| exit_status := 0;
       output := "{" ++ quoted "success" ++ ": false, "
                 ++ quoted "error" ++ ": "
                 ++ quoted "Transcripts are disabled for this video" ++ "}" ++ newline;
       calls := [("dQw4w9WgXcQ", ["en"])] |}.
Proof. reflexivity. Qed.

(** A quote and a line break in a description are escaped in the output and
    kept as they are in the result dictionary. *)
Example json_escape_quote_and_newline :
  json_dumps_str ("say " ++ double_quote ++ "hi" ++ double_quote ++ newline)
  = double_quote ++ "say " ++ backslash ++ double_quote ++ "hi"
    ++ backslash ++ double_quote ++ backslash ++ "n" ++ double_quote.
Proof. reflexivity. Qed.

Example json_escape_control_and_high :
  json_escape (String (ascii_of_nat 1) (String (ascii_of_nat 233) EmptyString))
  = backslash ++ "u0001" ++ backslash ++ "u00e9".
Proof. reflexivity. Qed.

(** ** How [fetch_transcript] runs *)

Section Runs.

Variable api : YouTubeTranscriptApi.
Variables (video_id : string) (w : World).

Lemma getattr_when_hasattr (t : FetchedTranscript) (w0 : World) :
  hasattr_language_code t = true ->
  exists code, language_code t = Some code
               /\ getattr_language_code t w0 = (Return code, w0).
Proof.
  unfold hasattr_language_code, getattr_language_code.
  destruct (language_code t) as [code|]; [|discriminate].
  intros _. exists code. split; reflexivity.
Qed.

Lemma fetch_transcript_fetched (t : FetchedTranscript) :
  api video_id ["en"] = Fetched t ->
  fetch_transcript api video_id w
  = (Return [ ("success", PyBool true);
              ("transcript", PyStr (str_join " " (map text (snippets t))));
              ("language", PyStr (match language_code t with
                                  | Some code => code
                                  | None => "en"
                                  end)) ],
     called w video_id).
Proof.
  intros Hfetch.
  unfold fetch_transcript, try_except, bind, api_fetch.
  rewrite Hfetch.
  destruct (hasattr_language_code t) eqn:Hattr.
  - destruct (getattr_when_hasattr t (called w video_id) Hattr)
      as (code & Hcode & Hget).
    unfold called in Hget. rewrite Hget, Hcode. reflexivity.
  - unfold hasattr_language_code in Hattr.
    destruct (language_code t); [discriminate|]. reflexivity.
Qed.

Lemma fetch_transcript_failed (e : PyException) :
  api video_id ["en"] = Failed e ->
  fetch_transcript api video_id w
  = (Return [ ("success", PyBool false);
              ("error",
               PyStr (if isinstance e TranscriptsDisabled
                      then "Transcripts are disabled for this video"
                      else if isinstance e VideoUnavailable
                      then "Video is unavailable"
                      else if isinstance e NoTranscriptFound
                      then "No transcript found for this video"
                      else str e)) ],
     called w video_id).
Proof.
  intros Hfetch.
  unfold fetch_transcript, try_except, bind, api_fetch.
  rewrite Hfetch.
  destruct e as [c msg]. destruct c; reflexivity.
Qed.

End Runs.

(** ** Joining strings *)

Lemma append_assoc (a b c : string) : (a ++ b) ++ c = a ++ (b ++ c).
Proof.
  induction a as [|ch a IH]; simpl; [reflexivity|].
  now rewrite IH.
Qed.


Lemma str_join_cons (sep s : string) (rest : list string) :
  rest <> [] -> str_join sep (s :: rest) = s ++ sep ++ str_join sep rest.
Proof.
  destruct rest as [|r rest]; [congruence|reflexivity].
Qed.

(** A prefix of the first item can be moved out of the join. *)
Lemma str_join_head_append (sep a b : string) (rest : list string) :
  str_join sep ((a ++ b) :: rest) = a ++ str_join sep (b :: rest).
Proof.
  destruct rest as [|r rest]; simpl; [reflexivity|].
  apply append_assoc.
Qed.

(** [str.join] with a space is the specification's left-to-right
    concatenation. *)
Lemma str_join_space_separated (texts : list string) :
  str_join " " texts = space_separated texts.
Proof.
  destruct texts as [|first others]; [reflexivity|].
  unfold space_separated.
  revert first.
  induction others as [|s others IH]; intros first; [reflexivity|].
  cbn [fold_left].
  rewrite <- IH, str_join_head_append.
  rewrite (str_join_head_append " " " " s others).
  reflexivity.
Qed.



(** ** How [main] runs *)

Lemma argument_count_one (argv : list string) :
  argument_count argv = 1 <-> exists prog video_id, argv = [prog; video_id].
Proof.
  unfold argument_count. split.
  - destruct argv as [|prog [|video_id [|x rest]]]; simpl; try discriminate.
    intros _. now exists prog, video_id.
  - intros (prog & video_id & ->). reflexivity.
Qed.

Lemma argument_count_length (argv : list string) :
  argument_count argv = 1 <-> List.length argv = 2.
Proof.
  unfold argument_count.
  destruct argv as [|prog rest]; simpl; [split; discriminate|].
  split; intros H; [now rewrite H | now injection H].
Qed.

Lemma main_usage (api : YouTubeTranscriptApi) (argv : list string) (w : World) :
  List.length argv <> 2 ->
  main api argv w
  = (SystemExit 1,
     {| api_calls := api_calls w;
        stdout := stdout w
                  ++ ("{" ++ quoted "success" ++ ": false, " ++ quoted "error" ++ ": "
                      ++ quoted "Usage: youtube_transcript_fetcher.py <video_id>" ++ "}")
                  ++ newline |}).
Proof.
  intros Hlen. unfold main.
  destruct (Nat.eqb (List.length argv) 2) eqn:Heq.
  - apply Nat.eqb_eq in Heq. contradiction.
  - reflexivity.
Qed.

Lemma main_one_argument (api : YouTubeTranscriptApi) (prog video_id : string) (w : World) :
  main api [prog; video_id] w
  = (result <- fetch_transcript api video_id ;; print (json_dumps result)) w.
Proof. reflexivity. Qed.

(** With one argument the script prints the result of [fetch_transcript] and
    runs to its end. *)
Lemma run_one_argument (api : YouTubeTranscriptApi) (prog video_id : string) :
  exists result,
    fst (fetch_transcript api video_id initial_world) = Return result
    /\ run api [prog; video_id]
       = {| exit_status := 0;
            output := json_dumps result ++ newline;
            calls := [(video_id, ["en"])] |}.
Proof.
  unfold run. rewrite main_one_argument. unfold bind.
  destruct (api video_id ["en"]) as [t|e] eqn:Hfetch.
  - rewrite (fetch_transcript_fetched api video_id initial_world t Hfetch).
    eexists. split; reflexivity.
  - rewrite (fetch_transcript_failed api video_id initial_world e Hfetch).
    eexists. split; reflexivity.
Qed.

(** ** The claims *)

(** C1: when the library call raises one of the three distinguished failure
    kinds, [fetch_transcript] returns the failure dictionary with the fixed
    message of that kind: TranscriptsDisabled gives
    [Transcripts are disabled for this video], VideoUnavailable gives
    [Video is unavailable], NoTranscriptFound gives
    [No transcript found for this video]. *)
Theorem fetch_transcript_distinguished_failures
    (api : YouTubeTranscriptApi) (video_id : string) (w : World) (e : PyException) :
  api video_id ["en"] = Failed e ->
  (exc_class e = TranscriptsDisabled ->
   fst (fetch_transcript api video_id w)
   = Return [ ("success", PyBool false);
              ("error", PyStr "Transcripts are disabled for this video") ])
  /\ (exc_class e = VideoUnavailable ->
      fst (fetch_transcript api video_id w)
      = Return [ ("success", PyBool false);
                 ("error", PyStr "Video is unavailable") ])
  /\ (exc_class e = NoTranscriptFound ->
      fst (fetch_transcript api video_id w)
      = Return [ ("success", PyBool false);
                 ("error", PyStr "No transcript found for this video") ]).
Proof.
  intros Hfetch.
  rewrite (fetch_transcript_failed api video_id w e Hfetch).
  unfold isinstance.
  repeat split; intros Hclass; rewrite Hclass; reflexivity.
Qed.

(** C1 at three raising libraries, one per kind. *)
Lemma fetch_transcript_distinguished_failures_witness :
  fst (fetch_transcript (api_raising TranscriptsDisabled "subtitles are off")
         "dQw4w9WgXcQ" initial_world)
  = Return [ ("success", PyBool false);
             ("error", PyStr "Transcripts are disabled for this video") ]
  /\ fst (fetch_transcript (api_raising VideoUnavailable "gone")
            "dQw4w9WgXcQ" initial_world)
     = Return [ ("success", PyBool false);
                ("error", PyStr "Video is unavailable") ]
  /\ fst (fetch_transcript (api_raising NoTranscriptFound "no en track")
            "dQw4w9WgXcQ" initial_world)
     = Return [ ("success", PyBool false);
                ("error", PyStr "No transcript found for this video") ].
Proof.
  split; [|split].
  - apply (fetch_transcript_distinguished_failures
             (api_raising TranscriptsDisabled "subtitles are off")
             "dQw4w9WgXcQ" initial_world _ eq_refl).
    reflexivity.
  - apply (fetch_transcript_distinguished_failures
             (api_raising VideoUnavailable "gone")
             "dQw4w9WgXcQ" initial_world _ eq_refl).
    reflexivity.
  - apply (fetch_transcript_distinguished_failures
             (api_raising NoTranscriptFound "no en track")
             "dQw4w9WgXcQ" initial_world _ eq_refl).
    reflexivity.
Defined.

(** C2: when the library call raises a failure that is an instance of none
    of the three distinguished classes, [fetch_transcript] returns the failure
    dictionary whose error message is [str(e)], the failure's own description,
    unchanged. *)
Theorem fetch_transcript_other_failure
    (api : YouTubeTranscriptApi) (video_id : string) (w : World) (e : PyException) :
  api video_id ["en"] = Failed e ->
  isinstance e TranscriptsDisabled = false ->
  isinstance e VideoUnavailable = false ->
  isinstance e NoTranscriptFound = false ->
  fst (fetch_transcript api video_id w)
  = Return [ ("success", PyBool false); ("error", PyStr (description e)) ].
Proof.
  intros Hfetch Hdisabled Hunavailable Hnotfound.
  rewrite (fetch_transcript_failed api video_id w e Hfetch).
  rewrite Hdisabled, Hunavailable, Hnotfound.
  reflexivity.
Qed.

(** C2 at a library that raises a plain exception. *)
Lemma fetch_transcript_other_failure_witness :
  fst (fetch_transcript (api_raising Exception "HTTP Error 429: Too Many Requests")
         "dQw4w9WgXcQ" initial_world)
  = Return [ ("success", PyBool false);
             ("error", PyStr "HTTP Error 429: Too Many Requests") ].
Proof.
  apply (fetch_transcript_other_failure
           (api_raising Exception "HTTP Error 429: Too Many Requests")
           "dQw4w9WgXcQ" initial_world _ eq_refl);
    reflexivity.
Defined.

(** C3: on a successful fetch the transcript text of the result is the
    segments' texts in sequence order with a single space between consecutive
    segments; segments with the texts a, b, c give the text [a b c]. *)
Theorem fetch_transcript_text_space_separated
    (api : YouTubeTranscriptApi) (video_id : string) (w : World)
    (t : FetchedTranscript) :
  api video_id ["en"] = Fetched t ->
  (exists result,
      fst (fetch_transcript api video_id w) = Return result
      /\ dict_get result "transcript"
         = Some (PyStr (space_separated (map text (snippets t)))))
  /\ (map text (snippets t) = ["a"; "b"; "c"] ->
      exists result,
        fst (fetch_transcript api video_id w) = Return result
        /\ dict_get result "transcript" = Some (PyStr "a b c")).
Proof.
  intros Hfetch.
  rewrite (fetch_transcript_fetched api video_id w t Hfetch).
  split.
  - eexists. split; [reflexivity|].
    cbn [dict_get String.eqb Ascii.eqb Bool.eqb fst].
    now rewrite str_join_space_separated.
  - intros Htexts. eexists. split; [reflexivity|].
    rewrite Htexts. reflexivity.
Qed.

(** C3 at the transcript with the segments a, b, c. *)
Lemma fetch_transcript_text_space_separated_witness :
  exists result,
    fst (fetch_transcript (api_returning abc_transcript) "dQw4w9WgXcQ" initial_world)
    = Return result
    /\ dict_get result "transcript" = Some (PyStr "a b c").
Proof.
  apply (fetch_transcript_text_space_separated
           (api_returning abc_transcript) "dQw4w9WgXcQ" initial_world
           abc_transcript eq_refl).
  reflexivity.
Defined.

(** C4: when the argument count is not one, the process prints the JSON
    object with [success] false and the usage message naming the program as
    its [error], exits with status 1, and makes no library call. *)
Theorem main_usage_error (api : YouTubeTranscriptApi) (argv : list string) :
  argument_count argv <> 1 ->
  run api argv
  = {| exit_status := 1;
       output := "{" ++ quoted "success" ++ ": false, " ++ quoted "error" ++ ": "
                 ++ quoted "Usage: youtube_transcript_fetcher.py <video_id>" ++ "}"
                 ++ newline;
       calls := [] |}.
Proof.
  intros Hcount.
  assert (Hlen : List.length argv <> 2)
    by (intros Hlen; apply Hcount, argument_count_length, Hlen).
  unfold run. rewrite (main_usage api argv initial_world Hlen).
  reflexivity.
Qed.

(** C4 with no argument and with two arguments. *)
Lemma main_usage_error_witness :
  run (api_returning abc_transcript) ["youtube_transcript_fetcher.py"]
  = {| exit_status := 1;
       output := "{" ++ quoted "success" ++ ": false, " ++ quoted "error" ++ ": "
                 ++ quoted "Usage: youtube_transcript_fetcher.py <video_id>" ++ "}"
                 ++ newline;
       calls := [] |}
  /\ exit_status (run (api_returning abc_transcript)
                    ["youtube_transcript_fetcher.py"; "dQw4w9WgXcQ"; "en"]) = 1%Z.
Proof.
  split.
  - apply (main_usage_error (api_returning abc_transcript)
             ["youtube_transcript_fetcher.py"]).
    unfold argument_count. simpl. lia.
  - rewrite (main_usage_error (api_returning abc_transcript)
               ["youtube_transcript_fetcher.py"; "dQw4w9WgXcQ"; "en"]).
    + reflexivity.
    + unfold argument_count. simpl. lia.
Defined.

(** C5: with exactly one argument the process exits with status 0 whatever
    the library call did: [fetch_transcript] always returns a dictionary, a
    raised failure becomes a failure dictionary, and no exception leaves
    [fetch_transcript]. *)
Theorem main_one_argument_exits_zero
    (api : YouTubeTranscriptApi) (argv : list string) :
  argument_count argv = 1 ->
  exit_status (run api argv) = 0%Z
  /\ (forall video_id w,
         exists result, fst (fetch_transcript api video_id w) = Return result)
  /\ (forall video_id w e,
         api video_id ["en"] = Failed e ->
         exists message,
           fst (fetch_transcript api video_id w)
           = Return [ ("success", PyBool false); ("error", PyStr message) ]).
Proof.
  intros Hcount.
  apply argument_count_one in Hcount as (prog & video_id & ->).
  split; [|split].
  - destruct (run_one_argument api prog video_id) as (result & _ & Hrun).
    now rewrite Hrun.
  - intros vid w.
    destruct (api vid ["en"]) as [t|e] eqn:Hfetch.
    + rewrite (fetch_transcript_fetched api vid w t Hfetch). now eexists.
    + rewrite (fetch_transcript_failed api vid w e Hfetch). now eexists.
  - intros vid w e Hfetch.
    rewrite (fetch_transcript_failed api vid w e Hfetch). now eexists.
Qed.

(** C5 at a library that raises an exception of no distinguished kind. *)
Lemma main_one_argument_exits_zero_witness :
  exit_status (run (api_raising Exception "connection reset")
                 ["youtube_transcript_fetcher.py"; "dQw4w9WgXcQ"]) = 0%Z.
Proof.
  apply (main_one_argument_exits_zero
           (api_raising Exception "connection reset")
           ["youtube_transcript_fetcher.py"; "dQw4w9WgXcQ"]).
  reflexivity.
Defined.

(** C6: on a successful fetch the [language] of the result is the language
    code that the transcript object exposes, and it is [en] when the object
    exposes none. *)
Theorem fetch_transcript_language
    (api : YouTubeTranscriptApi) (video_id : string) (w : World)
    (t : FetchedTranscript) :
  api video_id ["en"] = Fetched t ->
  exists result,
    fst (fetch_transcript api video_id w) = Return result
    /\ (forall code, language_code t = Some code ->
                     dict_get result "language" = Some (PyStr code))
    /\ (hasattr_language_code t = false ->
        dict_get result "language" = Some (PyStr "en")).
Proof.
  intros Hfetch.
  rewrite (fetch_transcript_fetched api video_id w t Hfetch).
  eexists. split; [reflexivity|].
  unfold hasattr_language_code.
  split.
  - intros code Hcode. rewrite Hcode. reflexivity.
  - destruct (language_code t); [discriminate|reflexivity].
Qed.

(** C6 at a transcript that exposes a code and at one that exposes none. *)
Lemma fetch_transcript_language_witness :
  (exists result,
      fst (fetch_transcript (api_returning abc_transcript) "dQw4w9WgXcQ" initial_world)
      = Return result
      /\ dict_get result "language" = Some (PyStr "en-US"))
  /\ (exists result,
         fst (fetch_transcript (api_returning bare_transcript) "dQw4w9WgXcQ" initial_world)
         = Return result
         /\ dict_get result "language" = Some (PyStr "en")).
Proof.
  split.
  - destruct (fetch_transcript_language
                (api_returning abc_transcript) "dQw4w9WgXcQ" initial_world
                abc_transcript eq_refl) as (result & Hrun & Hcode & _).
    exists result. split; [exact Hrun|]. apply Hcode. reflexivity.
  - destruct (fetch_transcript_language
                (api_returning bare_transcript) "dQw4w9WgXcQ" initial_world
                bare_transcript eq_refl) as (result & Hrun & _ & Hnone).
    exists result. split; [exact Hrun|]. apply Hnone. reflexivity.
Defined.

(** C7: [fetch_transcript] makes exactly one library call, with the video ID
    unchanged and the language list [en] alone; a process run with one
    argument makes that call and no other. *)
Theorem fetch_transcript_single_english_request
    (api : YouTubeTranscriptApi) (video_id : string) (w : World) :
  api_calls (snd (fetch_transcript api video_id w))
  = (api_calls w ++ [(video_id, ["en"])])%list
  /\ forall prog, calls (run api [prog; video_id]) = [(video_id, ["en"])].
Proof.
  split.
  - destruct (api video_id ["en"]) as [t|e] eqn:Hfetch.
    + now rewrite (fetch_transcript_fetched api video_id w t Hfetch).
    + now rewrite (fetch_transcript_failed api video_id w e Hfetch).
  - intros prog.
    destruct (run_one_argument api prog video_id) as (result & _ & Hrun).
    now rewrite Hrun.
Qed.




(** C9: [fetch_transcript] always returns a dictionary with a boolean
    [success]; its keys are success, transcript, language when the flag is
    true and success, error when it is false. *)
Theorem fetch_transcript_result_shape
    (api : YouTubeTranscriptApi) (video_id : string) (w : World) :
  exists result flag,
    fst (fetch_transcript api video_id w) = Return result
    /\ dict_get result "success" = Some (PyBool flag)
    /\ dict_keys result
       = (if flag then ["success"; "transcript"; "language"]
          else ["success"; "error"])
    /\ NoDup (dict_keys result).
Proof.
  destruct (api video_id ["en"]) as [t|e] eqn:Hfetch.
  - rewrite (fetch_transcript_fetched api video_id w t Hfetch).
    exists [ ("success", PyBool true);
             ("transcript", PyStr (str_join " " (map text (snippets t))));
             ("language", PyStr (match language_code t with
                                 | Some code => code
                                 | None => "en"
                                 end)) ], true.
    repeat split.
    repeat constructor; simpl; intuition discriminate.
  - rewrite (fetch_transcript_failed api video_id w e Hfetch).
    eexists. exists false.
    repeat split.
    repeat constructor; simpl; intuition discriminate.
Qed.

(** C10: two runs of [fetch_transcript] on the same video ID whose library
    calls respond alike return the same result, whatever else the two
    libraries do and whatever happened before in either process. *)
Theorem fetch_transcript_deterministic
    (api1 api2 : YouTubeTranscriptApi) (video_id : string) (w1 w2 : World) :
  api1 video_id ["en"] = api2 video_id ["en"] ->
  fst (fetch_transcript api1 video_id w1) = fst (fetch_transcript api2 video_id w2).
Proof.
  intros Hsame.
  destruct (api2 video_id ["en"]) as [t|e] eqn:Hfetch.
  - rewrite (fetch_transcript_fetched api1 video_id w1 t Hsame).
    rewrite (fetch_transcript_fetched api2 video_id w2 t Hfetch).
    reflexivity.
  - rewrite (fetch_transcript_failed api1 video_id w1 e Hsame).
    rewrite (fetch_transcript_failed api2 video_id w2 e Hfetch).
    reflexivity.
Qed.

(** C10 at two libraries that differ elsewhere and two different histories. *)
Lemma fetch_transcript_deterministic_witness :
  fst (fetch_transcript (api_returning abc_transcript) "dQw4w9WgXcQ" initial_world)
  = fst (fetch_transcript (api_one_video "dQw4w9WgXcQ" abc_transcript) "dQw4w9WgXcQ"
           {| api_calls := [("other", ["de"])]; stdout := "earlier output" |}).
Proof.
  apply (fetch_transcript_deterministic
           (api_returning abc_transcript)
           (api_one_video "dQw4w9WgXcQ" abc_transcript)
           "dQw4w9WgXcQ" initial_world
           {| api_calls := [("other", ["de"])]; stdout := "earlier output" |}).
  reflexivity.
Defined.

(** * Further properties of the script *)

(** ** The printed line is printable ASCII *)










(** ** Exit status and library calls *)

(** X4: the exit status is 0 exactly when there is one argument and 1 in
    every other case; the library is called exactly when there is one
    argument, and never more than once. *)
Theorem run_exit_status_and_calls
    (api : YouTubeTranscriptApi) (argv : list string) :
  (exit_status (run api argv) = 0%Z <-> argument_count argv = 1)
  /\ (exit_status (run api argv) = 1%Z <-> argument_count argv <> 1)
  /\ (calls (run api argv) = [] <-> argument_count argv <> 1)
  /\ List.length (calls (run api argv)) <= 1.
Proof.
  destruct (Nat.eq_dec (argument_count argv) 1) as [Hone|Hnot].
  - destruct (proj1 (argument_count_one argv) Hone) as (prog & video_id & ->).
    destruct (run_one_argument api prog video_id) as (result & _ & Hrun).
    rewrite Hrun. cbn [exit_status calls List.length].
    repeat split; intros; try tauto; try discriminate; try lia.
  - assert (Hlen : List.length argv <> 2)
      by (intros Hlen; apply Hnot, argument_count_length, Hlen).
    unfold run. rewrite (main_usage api argv initial_world Hlen).
    cbn [exit_status calls status_of api_calls initial_world List.length].
    repeat split; intros; try tauto; try discriminate; try lia.
Qed.

(** ** What a run with one argument prints *)

(** Brings both sides of an equation between printed texts to the same
    right-nested shape. *)
Ltac flatten_appends :=
  unfold quoted, double_quote;
  repeat first [rewrite append_assoc | progress cbn [append]].

(** X1: when the library call succeeds, a run with one argument prints the
    object with [success] true, then [transcript] with the escaped joined
    text, then [language] with the escaped language code, in this order, on
    one line, and exits with status 0. *)
Theorem run_prints_success
    (api : YouTubeTranscriptApi) (prog video_id : string) (t : FetchedTranscript) :
  api video_id ["en"] = Fetched t ->
  run api [prog; video_id]
  = {| exit_status := 0;
       output := "{" ++ quoted "success" ++ ": true, "
                 ++ quoted "transcript" ++ ": "
                 ++ json_dumps_str (str_join " " (map text (snippets t))) ++ ", "
                 ++ quoted "language" ++ ": "
                 ++ json_dumps_str (match language_code t with
                                    | Some code => code
                                    | None => "en"
                                    end)
                 ++ "}" ++ newline;
       calls := [(video_id, ["en"])] |}.
Proof.
  intros Hfetch.
  unfold run. rewrite main_one_argument. unfold bind.
  rewrite (fetch_transcript_fetched api video_id initial_world t Hfetch).
  cbn [print called initial_world api_calls stdout status_of app].
  f_equal.
  unfold json_dumps. cbn [map str_join fst snd json_dumps_value].
  change (json_dumps_str "success") with (quoted "success").
  change (json_dumps_str "transcript") with (quoted "transcript").
  change (json_dumps_str "language") with (quoted "language").
  flatten_appends.
  reflexivity.
Qed.

(** X1 at the transcript with the segments a, b, c. *)
Lemma run_prints_success_witness :
  output (run (api_returning abc_transcript)
            ["youtube_transcript_fetcher.py"; "dQw4w9WgXcQ"])
  = "{" ++ quoted "success" ++ ": true, "
    ++ quoted "transcript" ++ ": " ++ quoted "a b c" ++ ", "
    ++ quoted "language" ++ ": " ++ quoted "en-US" ++ "}" ++ newline.
Proof.
  rewrite (run_prints_success (api_returning abc_transcript)
             "youtube_transcript_fetcher.py" "dQw4w9WgXcQ" abc_transcript eq_refl).
  reflexivity.
Defined.

(** X2: when the library call raises, a run with one argument prints the
    object with [success] false and then [error] with the escaped message of
    the result of [fetch_transcript], on one line, and exits with status 0. *)
Theorem run_prints_failure
    (api : YouTubeTranscriptApi) (prog video_id : string) (e : PyException) :
  api video_id ["en"] = Failed e ->
  exists message,
    fst (fetch_transcript api video_id initial_world)
    = Return [ ("success", PyBool false); ("error", PyStr message) ]
    /\ run api [prog; video_id]
       = {| exit_status := 0;
            output := "{" ++ quoted "success" ++ ": false, "
                      ++ quoted "error" ++ ": " ++ json_dumps_str message
                      ++ "}" ++ newline;
            calls := [(video_id, ["en"])] |}.
Proof.
  intros Hfetch.
  unfold run. rewrite main_one_argument. unfold bind.
  rewrite (fetch_transcript_failed api video_id initial_world e Hfetch).
  eexists. split; [reflexivity|].
  cbn [print called initial_world api_calls stdout status_of app].
  f_equal.
  unfold json_dumps. cbn [map str_join fst snd json_dumps_value].
  change (json_dumps_str "success") with (quoted "success").
  change (json_dumps_str "error") with (quoted "error").
  flatten_appends.
  reflexivity.
Qed.

(** X2 at a library whose failure text holds a double quote. *)
Lemma run_prints_failure_witness :
  output (run (api_raising Exception ("no " ++ double_quote ++ "en" ++ double_quote))
            ["youtube_transcript_fetcher.py"; "dQw4w9WgXcQ"])
  = "{" ++ quoted "success" ++ ": false, "
    ++ quoted "error" ++ ": "
    ++ quoted ("no " ++ backslash ++ double_quote ++ "en" ++ backslash ++ double_quote)
    ++ "}" ++ newline.
Proof.
  destruct (run_prints_failure
              (api_raising Exception ("no " ++ double_quote ++ "en" ++ double_quote))
              "youtube_transcript_fetcher.py" "dQw4w9WgXcQ" _ eq_refl)
    as (message & Hresult & Hrun).
  rewrite Hrun. cbn [output].
  injection Hresult as <-.
  reflexivity.
Defined.

(** ** What [fetch_transcript] reports and leaves alone *)

(** X5: the [success] flag of the result tells whether the library call
    returned: it is true exactly when the call returned a transcript and
    false exactly when the call raised. *)
Theorem fetch_transcript_success_flag
    (api : YouTubeTranscriptApi) (video_id : string) (w : World) :
  exists result,
    fst (fetch_transcript api video_id w) = Return result
    /\ (dict_get result "success" = Some (PyBool true)
        <-> exists t, api video_id ["en"] = Fetched t)
    /\ (dict_get result "success" = Some (PyBool false)
        <-> exists e, api video_id ["en"] = Failed e).
Proof.
  destruct (api video_id ["en"]) as [t|e] eqn:Hfetch.
  - rewrite (fetch_transcript_fetched api video_id w t Hfetch).
    eexists. split; [reflexivity|].
    split; split; intros H.
    + now exists t.
    + reflexivity.
    + discriminate.
    + destruct H as (e & He). discriminate.
  - rewrite (fetch_transcript_failed api video_id w e Hfetch).
    eexists. split; [reflexivity|].
    split; split; intros H.
    + discriminate.
    + destruct H as (t & Ht). discriminate.
    + now exists e.
    + reflexivity.
Qed.

(** X6: [fetch_transcript] writes nothing to standard output, on success
    and on every failure; all output of the process comes from the
    [__main__] block. *)
Theorem fetch_transcript_prints_nothing
    (api : YouTubeTranscriptApi) (video_id : string) (w : World) :
  stdout (snd (fetch_transcript api video_id w)) = stdout w.
Proof.
  destruct (api video_id ["en"]) as [t|e] eqn:Hfetch.
  - now rewrite (fetch_transcript_fetched api video_id w t Hfetch).
  - now rewrite (fetch_transcript_failed api video_id w e Hfetch).
Qed.

(** ** The printed line determines the result *)


Lemma json_read_char_quote (rest : string) :
  json_read_char (double_quote ++ rest) = None.
Proof. reflexivity. Qed.






Lemma append_nil_r (s : string) : s ++ EmptyString = s.
Proof.
  induction s as [|c s IH]; simpl; [reflexivity|now rewrite IH].
Qed.

(** A join is its first item followed by the separated others. *)
Lemma str_join_first (sep s : string) (rest : list string) :
  str_join sep (s :: rest)
  = s ++ match rest with
         | [] => EmptyString
         | _ :: _ => sep ++ str_join sep rest
         end.
Proof.
  destruct rest as [|r rest]; [now rewrite append_nil_r|reflexivity].
Qed.





(** ** What the transcript text is made of *)

(** X8: the result uses the segments' texts and the language code only:
    two fetched transcripts with the same texts in the same order and the
    same language code give the same result, whatever their timing and
    whatever the video. *)
Theorem fetch_transcript_ignores_timing
    (api1 api2 : YouTubeTranscriptApi) (video_id1 video_id2 : string)
    (w1 w2 : World) (t1 t2 : FetchedTranscript) :
  api1 video_id1 ["en"] = Fetched t1 ->
  api2 video_id2 ["en"] = Fetched t2 ->
  map text (snippets t1) = map text (snippets t2) ->
  language_code t1 = language_code t2 ->
  fst (fetch_transcript api1 video_id1 w1) = fst (fetch_transcript api2 video_id2 w2).
Proof.
  intros Hfetch1 Hfetch2 Htexts Hcode.
  rewrite (fetch_transcript_fetched api1 video_id1 w1 t1 Hfetch1).
  rewrite (fetch_transcript_fetched api2 video_id2 w2 t2 Hfetch2).
  now rewrite Htexts, Hcode.
Qed.

(** X8 at the segments a, b, c with two different timings. *)
Lemma fetch_transcript_ignores_timing_witness :
  fst (fetch_transcript (api_returning abc_transcript) "dQw4w9WgXcQ" initial_world)
  = fst (fetch_transcript (api_returning abc_transcript_later) "9bZkp7q19f0"
           initial_world).
Proof.
  apply (fetch_transcript_ignores_timing
           (api_returning abc_transcript) (api_returning abc_transcript_later)
           "dQw4w9WgXcQ" "9bZkp7q19f0" initial_world initial_world
           abc_transcript abc_transcript_later);
    reflexivity.
Defined.

Lemma str_join_app (sep : string) (items1 items2 : list string) :
  items1 <> [] -> items2 <> [] ->
  str_join sep (items1 ++ items2)
  = str_join sep items1 ++ sep ++ str_join sep items2.
Proof.
  intros Hne1 Hne2.
  induction items1 as [|s [|r rest] IH]; [congruence| |].
  - cbn [app]. now rewrite str_join_cons.
  - change ((s :: r :: rest) ++ items2)%list
      with (s :: ((r :: rest) ++ items2))%list.
    rewrite str_join_cons by discriminate.
    rewrite IH by discriminate.
    rewrite (str_join_cons sep s (r :: rest)) by discriminate.
    now rewrite !append_assoc.
Qed.

(** X9: when the fetched segments split into two non-empty runs, the
    transcript text is the text of the first run, one space, and the text of
    the second run. *)
Theorem fetch_transcript_text_of_parts
    (api : YouTubeTranscriptApi) (video_id : string) (w : World)
    (t : FetchedTranscript) (part1 part2 : list FetchedTranscriptSnippet) :
  api video_id ["en"] = Fetched t ->
  snippets t = (part1 ++ part2)%list ->
  part1 <> [] -> part2 <> [] ->
  exists result,
    fst (fetch_transcript api video_id w) = Return result
    /\ dict_get result "transcript"
       = Some (PyStr (str_join " " (map text part1) ++ " "
                      ++ str_join " " (map text part2))).
Proof.
  intros Hfetch Hsplit Hne1 Hne2.
  rewrite (fetch_transcript_fetched api video_id w t Hfetch).
  eexists. split; [reflexivity|].
  cbn [dict_get String.eqb Ascii.eqb Bool.eqb].
  rewrite Hsplit, map_app, str_join_app; [reflexivity| |].
  - destruct part1; [congruence|discriminate].
  - destruct part2; [congruence|discriminate].
Qed.

(** X9 at the segments a, b, c split after the first one. *)
Lemma fetch_transcript_text_of_parts_witness :
  exists result,
    fst (fetch_transcript (api_returning abc_transcript) "dQw4w9WgXcQ" initial_world)
    = Return result
    /\ dict_get result "transcript" = Some (PyStr ("a" ++ " " ++ "b c")).
Proof.
  apply (fetch_transcript_text_of_parts
           (api_returning abc_transcript) "dQw4w9WgXcQ" initial_world
           abc_transcript [snippet_of "a"] [snippet_of "b"; snippet_of "c"]);
    [reflexivity|reflexivity|discriminate|discriminate].
Defined.

Lemma str_join_occurs (sep s : string) (items : list string) :
  In s items -> occurs_in s (str_join sep items).
Proof.
  induction items as [|s0 rest IH]; [contradiction|].
  intros [-> | Hin]; rewrite str_join_first.
  - exists EmptyString. eexists. reflexivity.
  - destruct rest as [|r rest]; [contradiction|].
    destruct (IH Hin) as (before & after & ->).
    exists (s0 ++ sep ++ before), after.
    now rewrite !append_assoc.
Qed.

(** X10: no segment is dropped: the text of every fetched segment occurs in
    the transcript text of the result. *)
Theorem fetch_transcript_keeps_every_segment
    (api : YouTubeTranscriptApi) (video_id : string) (w : World)
    (t : FetchedTranscript) (snippet : FetchedTranscriptSnippet) :
  api video_id ["en"] = Fetched t ->
  In snippet (snippets t) ->
  exists result joined,
    fst (fetch_transcript api video_id w) = Return result
    /\ dict_get result "transcript" = Some (PyStr joined)
    /\ occurs_in (text snippet) joined.
Proof.
  intros Hfetch Hin.
  rewrite (fetch_transcript_fetched api video_id w t Hfetch).
  do 2 eexists. split; [reflexivity|]. split; [reflexivity|].
  apply str_join_occurs, in_map, Hin.
Qed.

(** X10 at the middle segment of a, b, c. *)
Lemma fetch_transcript_keeps_every_segment_witness :
  exists result joined,
    fst (fetch_transcript (api_returning abc_transcript) "dQw4w9WgXcQ" initial_world)
    = Return result
    /\ dict_get result "transcript" = Some (PyStr joined)
    /\ occurs_in "b" joined.
Proof.
  apply (fetch_transcript_keeps_every_segment
           (api_returning abc_transcript) "dQw4w9WgXcQ" initial_world
           abc_transcript (snippet_of "b") eq_refl).
  simpl. tauto.
Defined.
